(** * debugger.py: run a script and explain the error it raises

    The program is a single [try]/[except Exception] statement.  The body
    executes the text of [test.py] with [exec], in the module's own
    namespace; the handler prints the text of the error and one of three
    canned explanations, chosen by two substring tests on that text.

    The handler runs after the script.  The names [Exception], [str] and
    [print] it uses are looked up in the namespace the script ran in, and
    [str(e)] runs code of the class of the error; what they do is
    therefore part of what the script leaves behind, and each of them can
    raise.  A run is sequential: threads the script leaves running and
    signals that arrive while the handler runs are outside this
    development, and the process starts with a working standard output.

    Strings are sequences of bytes (the UTF-8 text of a Python [str]).  The
    two needles of the program are ASCII, and an ASCII needle occurs in a
    text exactly when its bytes occur in the UTF-8 bytes of the text.
    [str.lower] is modelled on the ASCII letters: no character outside
    ASCII lowercases to one of the letters of the needle it is used with. *)

From Stdlib Require Import Strings.String Strings.Ascii Lists.List.
From Stdlib Require Import Bool.Bool Arith.PeanoNat ZArith.ZArith Lia.
Import ListNotations.
Open Scope string_scope.

(** ** Python strings *)

Module PyStr.

(** The line terminator [print] writes, and the [\n] escape of a literal. *)
Definition nl : string := String "010"%char EmptyString.

(** [str.lower] on one character. *)
Definition lower_char (c : ascii) : ascii :=
  let n := nat_of_ascii c in
  if (65 <=? n)%nat && (n <=? 90)%nat then ascii_of_nat (n + 32) else c.

(** [s.lower()] *)
Fixpoint lower (s : string) : string :=
  match s with
  | EmptyString => EmptyString
  | String c rest => String (lower_char c) (lower rest)
  end.

(** [hay.startswith(needle)] *)
Fixpoint startswith (needle hay : string) : bool :=
  match needle, hay with
  | EmptyString, _ => true
  | String _ _, EmptyString => false
  | String a needle', String b hay' => Ascii.eqb a b && startswith needle' hay'
  end.

(** [needle in hay]: the needle starts at some position of the hay. *)
Fixpoint contains (needle hay : string) : bool :=
  startswith needle hay
  || match hay with
     | EmptyString => false
     | String _ hay' => contains needle hay'
     end.

(** The mathematical reading of [needle in hay]. *)
Definition Substring (needle hay : string) : Prop :=
  exists pre post, hay = pre ++ needle ++ post.

(** [s.isascii()] *)
Fixpoint is_ascii (s : string) : bool :=
  match s with
  | EmptyString => true
  | String c rest => (nat_of_ascii c <? 128)%nat && is_ascii rest
  end.

(** [len(s)]: the characters of a text are the bytes of its UTF-8 form
    that do not continue a character (those outside 128..191). *)
Fixpoint len (s : string) : nat :=
  match s with
  | EmptyString => 0
  | String c rest =>
      let n := nat_of_ascii c in
      (if (128 <=? n)%nat && (n <? 192)%nat then 0 else 1) + len rest
  end.

End PyStr.

(** ** Python exceptions *)

Module PyExc.

(** The built-in exception classes that matter to a script runner. *)
Inductive builtin : Type :=
| BaseException | Exception
| SystemExit | KeyboardInterrupt | GeneratorExit
| ArithmeticError | ZeroDivisionError
| LookupError | KeyError
| NameError | UnboundLocalError
| OSError | FileNotFoundError
| SyntaxError | IndentationError
| TypeError | ValueError | UnicodeError | UnicodeEncodeError.

(** [cls.__mro__] of a built-in class, without [object]. *)
Definition builtin_mro (b : builtin) : list builtin :=
  match b with
  | BaseException => [BaseException]
  | Exception => [Exception; BaseException]
  | SystemExit => [SystemExit; BaseException]
  | KeyboardInterrupt => [KeyboardInterrupt; BaseException]
  | GeneratorExit => [GeneratorExit; BaseException]
  | ArithmeticError => [ArithmeticError; Exception; BaseException]
  | ZeroDivisionError =>
      [ZeroDivisionError; ArithmeticError; Exception; BaseException]
  | LookupError => [LookupError; Exception; BaseException]
  | KeyError => [KeyError; LookupError; Exception; BaseException]
  | NameError => [NameError; Exception; BaseException]
  | UnboundLocalError =>
      [UnboundLocalError; NameError; Exception; BaseException]
  | OSError => [OSError; Exception; BaseException]
  | FileNotFoundError =>
      [FileNotFoundError; OSError; Exception; BaseException]
  | SyntaxError => [SyntaxError; Exception; BaseException]
  | IndentationError =>
      [IndentationError; SyntaxError; Exception; BaseException]
  | TypeError => [TypeError; Exception; BaseException]
  | ValueError => [ValueError; Exception; BaseException]
  | UnicodeError => [UnicodeError; ValueError; Exception; BaseException]
  | UnicodeEncodeError =>
      [UnicodeEncodeError; UnicodeError; ValueError; Exception;
       BaseException]
  end.

Definition builtin_eq_dec (a b : builtin) : {a = b} + {a <> b}.
Proof. decide equality. Defined.

(** A class is built in, or declared by the script with [class name(base)]. *)
Inductive exc_class : Type :=
| Builtin (b : builtin)
| Subclass (name : string) (base : exc_class).

Definition exc_class_eq_dec (c d : exc_class) : {c = d} + {c <> d}.
Proof. decide equality; [apply builtin_eq_dec | apply string_dec]. Defined.

(** The built-in classes on the method resolution order of a class. *)
Fixpoint builtin_ancestors (c : exc_class) : list builtin :=
  match c with
  | Builtin b => builtin_mro b
  | Subclass _ base => builtin_ancestors base
  end.

(** [cls.__mro__], without [object]. *)
Fixpoint mro (c : exc_class) : list exc_class :=
  match c with
  | Builtin b => map Builtin (builtin_mro b)
  | Subclass _ base => c :: mro base
  end.

(** An exception object: its class, and the text the built-in [__str__]
    makes of its arguments. *)
Record pyexc : Type := { exc_type : exc_class; exc_str : string }.

(** [isinstance(e, b)] for a built-in class [b]. *)
Definition isinstance (e : pyexc) (b : builtin) : bool :=
  existsb (fun a => if builtin_eq_dec a b then true else false)
          (builtin_ancestors (exc_type e)).

(** [isinstance(e, c)] for any exception class: the test an [except c]
    clause makes. *)
Definition matches (e : pyexc) (c : exc_class) : bool :=
  existsb (fun a => if exc_class_eq_dec a c then true else false)
          (mro (exc_type e)).

(** What [open(path)] raises when no file is at [path]: CPython's text for
    [ENOENT], followed by the [repr] of the path. *)
Definition file_not_found (path : string) : pyexc :=
  {| exc_type := Builtin FileNotFoundError;
     exc_str := "[Errno 2] No such file or directory: '" ++ path ++ "'" |}.

End PyExc.

(** ** The interpreter the handler runs in *)

Module Runtime.
Import PyStr PyExc.

(** An evaluation yields a value or raises. *)
Inductive result (A : Type) : Type :=
| Value (a : A)
| Throws (err : pyexc).

Arguments Value {A} a.
Arguments Throws {A} err.

Section Interpreter.

(** The state the code of the script keeps: its variables and objects. *)
Variable heap : Type.

(** One evaluation, from a state of the script's heap: the text it appends
    to standard output, the heap it leaves, and its result. *)
Definition comp (A : Type) : Type := heap -> string * heap * result A.

Definition ret {A : Type} (a : A) : comp A :=
  fun h => (EmptyString, h, Value a).

(** Evaluate [m], then [k] on its value; a raise of [m] ends both. *)
Definition bind {A B : Type} (m : comp A) (k : A -> comp B) : comp B :=
  fun h =>
    let '(text, h1, r) := m h in
    match r with
    | Value a => let '(text', h2, r') := k a h1 in (text ++ text', h2, r')
    | Throws err => (text, h1, Throws err)
    end.

(** The object [x.lower()] returns, seen through [needle in it]. *)
Record lowered : Type := { low_contains : string -> comp bool }.

(** An object as the handler uses one: [str(x)] as the built-in [print]
    takes it, [needle in x], and [x.lower()].  Each runs a method of the
    class of the object. *)
Record pyobj : Type := {
  to_text : comp string;
  obj_contains : string -> comp bool;
  obj_lower : comp lowered
}.

(** An object of the exact type [str]. *)
Definition plain (s : string) : pyobj :=
  {| to_text := ret s;
     obj_contains := fun needle => ret (contains needle s);
     obj_lower :=
       ret {| low_contains := fun needle => ret (contains needle (lower s)) |}
  |}.

(** What the name [Exception] is bound to when an [except Exception]
    clause is reached: a class or a tuple of classes deriving from
    [BaseException], or something no clause can catch with (another
    object, or nothing), for which the clause itself raises. *)
Inductive exception_binding : Type :=
| Classes (cs : list exc_class)
| Unusable (err : pyexc).

(** Does [except Exception] take the raised error? *)
Definition catches (b : exception_binding) (e : pyexc) : result bool :=
  match b with
  | Classes cs => Value (existsb (matches e) cs)
  | Unusable err => Throws err
  end.

(** The namespace the handler finds: the binding of [Exception], and what
    the calls [str(e)] and [print(x)] do. *)
Record namespace : Type := {
  name_Exception : exception_binding;
  call_str : pyexc -> comp pyobj;
  call_print : pyobj -> comp unit
}.

(** The encoder of standard output: the error it raises for a text it
    cannot encode.  ASCII text is never refused. *)
Variable rejects : string -> option pyexc.

Definition writable (text : string) : bool :=
  is_ascii text
  || match rejects text with
     | None => true
     | Some _ => false
     end.

(** Writing one line to standard output. *)
Definition write_line (text : string) : comp unit :=
  fun h =>
    if is_ascii text then (text ++ nl, h, Value tt)
    else match rejects text with
         | None => (text ++ nl, h, Value tt)
         | Some err => (EmptyString, h, Throws err)
         end.

(** The built-in [print(x)], writing to the standard output stream. *)
Definition builtin_print (x : pyobj) : comp unit :=
  bind (to_text x) write_line.

(** The built-in [str(e)] on an exception whose class keeps the built-in
    [__str__]. *)
Definition builtin_str (e : pyexc) : comp pyobj := ret (plain (exc_str e)).

(** The namespace of a module before any script has run in it. *)
Definition fresh : namespace :=
  {| name_Exception := Classes [Builtin Exception];
     call_str := builtin_str;
     call_print := builtin_print |}.

End Interpreter.

Arguments ret {heap A} a.
Arguments bind {heap A B} m k.
Arguments low_contains {heap} l needle.
Arguments to_text {heap} p.
Arguments obj_contains {heap} p needle.
Arguments obj_lower {heap} p.
Arguments plain {heap} s.
Arguments name_Exception {heap} n.
Arguments call_str {heap} n e.
Arguments call_print {heap} n x.
Arguments write_line {heap} rejects text.
Arguments builtin_print {heap} rejects x.
Arguments builtin_str {heap} e.
Arguments fresh {heap} rejects.

Notation "x <- m ;; k" := (bind m (fun x => k))
  (at level 61, m at next level, right associativity).
Notation "m ;;; k" := (bind m (fun _ => k))
  (at level 61, right associativity).

End Runtime.

(** ** The program *)

Module Debugger.
Import PyStr PyExc Runtime.

(** The body of the [except Exception as e:] clause, in the namespace the
    script left. *)
Definition except_handler {heap : Type} (ns : namespace heap) (e : pyexc)
  : comp heap unit :=
  error_message <- call_str ns e ;;
  call_print ns (plain "Error detected:") ;;;
  call_print ns error_message ;;;
  found <- obj_contains error_message "not defined" ;;
  if found then
    call_print ns (plain (nl ++ "Explanation:")) ;;;
    call_print ns (plain "You are using a variable before assigning a value.")
  else
    lowered_message <- obj_lower error_message ;;
    found <- low_contains lowered_message "syntax" ;;
    if found then
      call_print ns (plain (nl ++ "Explanation:")) ;;;
      call_print ns
        (plain "There is a syntax mistake. Check brackets or colons.")
    else
      call_print ns (plain (nl ++ "Explanation:")) ;;;
      call_print ns (plain "An error occurred. Please check your code.").

(** How a block of statements ends: it returns, it raises, or it does
    neither (the script ends the process itself, or never ends). *)
Inductive outcome : Type :=
| Returned
| Raised (e : pyexc)
| NeverReturns.

(** What running the script does: the text it writes, how it ends, and
    what it leaves in the shared process: its heap and the namespace. *)
Record effect (heap : Type) : Type := {
  written : string;
  ending : outcome;
  heap_after : heap;
  names : namespace heap
}.

Arguments written {heap} e.
Arguments ending {heap} e.
Arguments heap_after {heap} e.
Arguments names {heap} e.

(** The environment of one run: the text of [test.py], if the file exists;
    the heap a script works on; the encoder of standard output; and what
    [exec] does with a source text.  The executed code shares the process,
    so what it prints goes to the same standard output and what it binds
    stays bound. *)
Record world : Type := {
  test_py : option string;
  heap : Type;
  initial : heap;
  rejects : string -> option pyexc;
  exec : string -> effect heap
}.

(** [exec(open("test.py").read())] *)
Definition try_body (w : world) : effect (heap w) :=
  match test_py w with
  | None => {| written := "";
               ending := Raised (file_not_found "test.py");
               heap_after := initial w;
               names := fresh (rejects w) |}
  | Some source => exec w source
  end.

(** How the process ends: control falls off the end of the module, an
    exception reaches the interpreter's top level, or the end of the
    module is never reached. *)
Inductive termination : Type :=
| NormalExit
| Uncaught (e : pyexc)
| NotReached.

Record run : Type := { stdout : string; status : termination }.

(** The whole module: [try: ... except Exception as e: ...]. *)
Definition main (w : world) : run :=
  let body := try_body w in
  match ending body with
  | Returned => {| stdout := written body; status := NormalExit |}
  | NeverReturns => {| stdout := written body; status := NotReached |}
  | Raised e =>
      match catches (name_Exception (names body)) e with
      | Throws err => {| stdout := written body; status := Uncaught err |}
      | Value false => {| stdout := written body; status := Uncaught e |}
      | Value true =>
          let '(text, _, r) :=
            except_handler (names body) e (heap_after body) in
          {| stdout := written body ++ text;
             status := match r with
                       | Value _ => NormalExit
                       | Throws err => Uncaught err
                       end |}
      end
  end.

(** The exit status the interpreter reports.  After a normal end it is 0.
    An uncaught exception makes it 1, except that [SystemExit] carries its
    own status and [KeyboardInterrupt] ends the process by a signal; those
    two, and a run that does not reach its end, are left open here. *)
Definition exit_status (t : termination) : option Z :=
  match t with
  | NormalExit => Some 0%Z
  | Uncaught e =>
      if isinstance e SystemExit || isinstance e KeyboardInterrupt
      then None
      else Some 1%Z
  | NotReached => None
  end.

(** Whether the interpreter prints a traceback on standard error: it does
    for an uncaught exception other than [SystemExit]. *)
Definition traceback_printed (t : termination) : bool :=
  match t with
  | NormalExit => false
  | Uncaught e => negb (isinstance e SystemExit)
  | NotReached => false
  end.

(** The script has left alone what the handler uses for the error [e]:
    [Exception] is the built-in class, [str(e)] gives the plain text of
    the error, and [print] is the built-in writing to standard output. *)
Definition Untouched (w : world) (e : pyexc) : Prop :=
  name_Exception (names (try_body w)) = Classes [Builtin Exception]
  /\ (forall h, call_str (names (try_body w)) e h = builtin_str e h)
  /\ (forall x h,
        call_print (names (try_body w)) x h = builtin_print (rejects w) x h).

(** Standard output can encode the text. *)
Definition Writable (w : world) (text : string) : Prop :=
  writable (rejects w) text = true.

End Debugger.

(** ** The classification policy, as the specification words it *)

Module Policy.
Import PyStr.

(** The display classes of the error taxonomy. *)
Inductive bucket : Type :=
| UndefinedVariableLike
| SyntaxLike
| Other.

(** First match wins: the literal test, then the lowercased test. *)
Definition selects (message : string) (b : bucket) : Prop :=
  match b with
  | UndefinedVariableLike => Substring "not defined" message
  | SyntaxLike =>
      ~ Substring "not defined" message
      /\ Substring "syntax" (lower message)
  | Other =>
      ~ Substring "not defined" message
      /\ ~ Substring "syntax" (lower message)
  end.

Definition explanation (b : bucket) : string :=
  match b with
  | UndefinedVariableLike =>
      "You are using a variable before assigning a value."
  | SyntaxLike => "There is a syntax mistake. Check brackets or colons."
  | Other => "An error occurred. Please check your code."
  end.

(** The text shown for an error: the header line, the raw message, a blank
    line, the line [Explanation:] and one sentence. *)
Definition report (message sentence : string) : string :=
  "Error detected:" ++ nl ++ message ++ nl
  ++ nl ++ "Explanation:" ++ nl ++ sentence ++ nl.

End Policy.

(** ** Sample runs *)

Module Samples.
Import PyStr PyExc Runtime Debugger.

(** A standard output that encodes every text. *)
Definition accepts_all : string -> option pyexc := fun _ => None.

(** A [test.py] with the given text, whose execution has the given effect,
    on a standard output with the given encoder. *)
Definition script_on (encoder : string -> option pyexc)
  (source : string) (behaviour : effect unit) : world :=
  {| test_py := Some source;
     heap := unit;
     initial := tt;
     rejects := encoder;
     exec := fun _ => behaviour |}.

Definition script : string -> effect unit -> world := script_on accepts_all.

(** The effect of a script that rebinds none of the names of the handler. *)
Definition leaving (text : string) (how : outcome) : effect unit :=
  {| written := text;
     ending := how;
     heap_after := tt;
     names := fresh accepts_all |}.

(** No [test.py] in the working directory. *)
Definition no_script : world :=
  {| test_py := None;
     heap := unit;
     initial := tt;
     rejects := accepts_all;
     exec := fun _ => leaving "" Returned |}.

(** [b(message)], an instance of a built-in class. *)
Definition instance (b : builtin) (message : string) : pyexc :=
  {| exc_type := Builtin b; exc_str := message |}.

Definition raising (b : builtin) (message : string) : effect unit :=
  leaving "" (Raised (instance b message)).

(** [print(x)] with no [x] bound. *)
Definition undefined_name : world :=
  script "print(x)" (raising NameError "name 'x' is not defined").

(** [x = = 1] does not compile. *)
Definition bad_syntax : world :=
  script "x = = 1" (raising SyntaxError "invalid syntax (<string>, line 1)").

(** A message that spells the word with a capital. *)
Definition capital_syntax : world :=
  script "raise ValueError('Syntax of the header is wrong')"
         (raising ValueError "Syntax of the header is wrong").

(** A message with both needles. *)
Definition both_needles : world :=
  script "raise NameError('syntax table is not defined')"
         (raising NameError "syntax table is not defined").

Definition division : world :=
  script "1/0" (raising ZeroDivisionError "division by zero").

(** An error of a class the script declares, with the text of [division]. *)
Definition oops : pyexc :=
  {| exc_type := Subclass "Oops" (Builtin Exception);
     exc_str := "division by zero" |}.

Definition same_text_other_type : world :=
  script ("class Oops(Exception): pass" ++ nl
          ++ "raise Oops('division by zero')")
         (leaving "" (Raised oops)).

(** A script that prints and ends. *)
Definition greeting : world :=
  script "print('hi')" (leaving ("hi" ++ nl) Returned).

(** A script that writes nothing and ends. *)
Definition quiet : world :=
  script "x = 1" (leaving "" Returned).

(** A script that prints, then fails. *)
Definition prints_then_fails : world :=
  script "print('start'); print(x)"
         (leaving ("start" ++ nl)
            (Raised (instance NameError "name 'x' is not defined"))).

(** Scripts that leave through an exception outside [Exception]. *)
Definition exit_not_defined : world :=
  script "import sys; sys.exit('mode is not defined')"
         (raising SystemExit "mode is not defined").

Definition exit_syntax : world :=
  script "import sys; sys.exit('Syntax: run FILE')"
         (raising SystemExit "Syntax: run FILE").

Definition interrupted : world :=
  script "raise KeyboardInterrupt" (raising KeyboardInterrupt "").

Definition base_error : world :=
  script "raise BaseException('boom')" (raising BaseException "boom").

(** [raise Exception()]: an error with the empty message. *)
Definition bare_exception : world :=
  script "raise Exception()" (raising Exception "").

(** A message of two lines. *)
Definition two_line_message : world :=
  script "raise ValueError('first line\nsecond line')"
    (raising ValueError ("first line" ++ nl ++ "second line")).

(** The word in capitals. *)
Definition shouted_syntax : world :=
  script "raise ValueError('SYNTAX ERROR')"
    (raising ValueError "SYNTAX ERROR").

(** The first needle in capitals. *)
Definition shouted_not_defined : world :=
  script "raise ValueError('X IS NOT DEFINED')"
    (raising ValueError "X IS NOT DEFINED").

(** The message of [division] inside a longer one that holds the first
    needle. *)
Definition wrapped_division : world :=
  script "raise ValueError('rate is not defined: division by zero')"
    (raising ValueError "rate is not defined: division by zero").

(** The message of [undefined_name] inside a longer one. *)
Definition wrapped_undefined : world :=
  script "raise ValueError('load failed: name \'x\' is not defined')"
    (raising ValueError "load failed: name 'x' is not defined").

(** Three characters outside ASCII, nine bytes: the message of
    [raise ValueError('...')] with three CJK characters. *)
Definition three_wide_characters : string :=
  String "228" (String "184" (String "173"
  (String "230" (String "150" (String "135"
  (String "229" (String "173" (String "151" EmptyString)))))))).

Definition wide_message : world :=
  script "raise ValueError(chr(20013) + chr(25991) + chr(23383))"
    (raising ValueError three_wide_characters).

End Samples.

(** ** Sample runs of scripts that change what the handler uses *)

Module Tampered.
Import PyStr PyExc Runtime Debugger Samples.

(** The namespace after [print = lambda *a: None]. *)
Definition silent_print : namespace unit :=
  {| name_Exception := Classes [Builtin Exception];
     call_str := builtin_str;
     call_print := fun _ => ret tt |}.

Definition silenced (how : outcome) : effect unit :=
  {| written := ""; ending := how; heap_after := tt;
     names := silent_print |}.

Definition silenced_both_needles : world :=
  script ("print = lambda *a: None" ++ nl
          ++ "raise NameError('syntax table is not defined')")
         (silenced (Raised (instance NameError "syntax table is not defined"))).

Definition silenced_division : world :=
  script ("print = lambda *a: None" ++ nl ++ "1/0")
         (silenced (Raised (instance ZeroDivisionError "division by zero"))).

(** The namespace after [str = 'hello']: calling the name raises. *)
Definition not_callable : pyexc :=
  instance TypeError "'str' object is not callable".

Definition shadowed_str : world :=
  script ("str = 'hello'" ++ nl ++ "print(x)")
    {| written := "";
       ending := Raised (instance NameError "name 'x' is not defined");
       heap_after := tt;
       names := {| name_Exception := Classes [Builtin Exception];
                   call_str := fun _ h => (EmptyString, h, Throws not_callable);
                   call_print := builtin_print accepts_all |} |}.

(** The namespace after [Exception = KeyError]. *)
Definition rebound_Exception : world :=
  script ("Exception = KeyError" ++ nl ++ "1/0")
    {| written := "";
       ending := Raised (instance ZeroDivisionError "division by zero");
       heap_after := tt;
       names := {| name_Exception := Classes [Builtin KeyError];
                   call_str := builtin_str;
                   call_print := builtin_print accepts_all |} |}.

(** A message that is one lone surrogate, on a UTF-8 standard output. *)
Definition lone_surrogate : string :=
  String "237" (String "178" (String "128" EmptyString)).

Definition surrogates_not_allowed : pyexc :=
  instance UnicodeEncodeError
    "'utf-8' codec can't encode character '\udc80' in position 0: surrogates not allowed".

Definition utf8_strict (text : string) : option pyexc :=
  if String.eqb text lone_surrogate then Some surrogates_not_allowed
  else None.

Definition unencodable_message : world :=
  script_on utf8_strict "raise ValueError('\udc80')"
    {| written := "";
       ending := Raised (instance ValueError lone_surrogate);
       heap_after := tt;
       names := fresh utf8_strict |}.

(** An error whose [__str__] returns an instance of a subclass of [str]
    that answers [False] to every [in]. *)
Definition denying (s : string) : pyobj unit :=
  {| to_text := ret s;
     obj_contains := fun _ => ret false;
     obj_lower :=
       ret {| low_contains := fun needle => ret (contains needle (lower s)) |}
  |}.

Definition odd_error : pyexc :=
  {| exc_type := Subclass "E" (Builtin Exception); exc_str := "" |}.

Definition denying_message : world :=
  script ("class M(str):" ++ nl
          ++ "    def __contains__(self, x): return False" ++ nl
          ++ "class E(Exception):" ++ nl
          ++ "    def __str__(self): return M('syntax table is not defined')"
          ++ nl ++ "raise E()")
    {| written := "";
       ending := Raised odd_error;
       heap_after := tt;
       names := {| name_Exception := Classes [Builtin Exception];
                   call_str :=
                     fun _ => ret (denying "syntax table is not defined");
                   call_print := builtin_print accepts_all |} |}.

End Tampered.

(** ** Measures of the output *)

Module Measures.

(** The number of line terminators in a text: the lines it ends. *)
Fixpoint count_nl (s : string) : nat :=
  match s with
  | EmptyString => 0
  | String c rest =>
      (if Ascii.eqb c "010"%char then 1 else 0) + count_nl rest
  end.

End Measures.

Import PyStr PyExc Runtime Debugger Policy Measures.

(** ** Facts about strings *)

Lemma append_assoc (a b c : string) : (a ++ b) ++ c = a ++ b ++ c.
Proof.
  induction a as [|x a IH]; simpl; [reflexivity | now rewrite IH].
Qed.

Lemma append_nil_r (s : string) : s ++ "" = s.
Proof.
  induction s as [|c s IH]; simpl; [reflexivity | now rewrite IH].
Qed.

Lemma append_cancel_l (a b c : string) : a ++ b = a ++ c -> b = c.
Proof.
  induction a as [|x a IH]; simpl; intros H; [exact H |].
  injection H as H. now apply IH.
Qed.

Lemma startswith_iff (needle hay : string) :
  startswith needle hay = true <-> exists post, hay = needle ++ post.
Proof.
  revert hay. induction needle as [|a needle IH]; intros hay; simpl.
  - split; [intros _; now exists hay | reflexivity].
  - destruct hay as [|b hay]; simpl.
    + split; [discriminate | intros [post H]; discriminate].
    + rewrite andb_true_iff, Ascii.eqb_eq, IH. split.
      * intros [-> [post ->]]. now exists post.
      * intros [post H]. injection H as -> ->. split; [reflexivity | now exists post].
Qed.

(** The scan computes the substring relation. *)
Lemma contains_iff (needle hay : string) :
  contains needle hay = true <-> Substring needle hay.
Proof.
  unfold Substring. induction hay as [|b hay IH].
  - simpl. rewrite orb_false_r, startswith_iff. split.
    + intros [post H]. now exists ""%string, post.
    + intros [[|x pre] [post H]]; [now exists post | discriminate].
  - cbn [contains]. rewrite orb_true_iff, startswith_iff, IH. split.
    + intros [[post H] | [pre [post H]]].
      * now exists ""%string, post.
      * exists (String b pre), post. simpl. now rewrite H.
    + intros [[|x pre] [post H]].
      * left. now exists post.
      * right. simpl in H. injection H as _ H. now exists pre, post.
Qed.

Lemma contains_false_iff (needle hay : string) :
  contains needle hay = false <-> ~ Substring needle hay.
Proof.
  rewrite <- contains_iff. now destruct (contains needle hay).
Qed.

Lemma lower_append (a b : string) : lower (a ++ b) = lower a ++ lower b.
Proof.
  induction a as [|c a IH]; simpl; [reflexivity | now rewrite IH].
Qed.

(** A split of the lowercased text comes from a split of the text. *)
Lemma lower_split (m a b : string) :
  lower m = a ++ b ->
  exists a' b', m = a' ++ b' /\ lower a' = a /\ lower b' = b.
Proof.
  revert m. induction a as [|c a IH]; intros m H.
  - exists "", m. now repeat split.
  - destruct m as [|x m]; [discriminate H |].
    simpl in H. injection H as Hc H.
    destruct (IH m H) as [a' [b' [-> [Ha Hb]]]].
    exists (String x a'), b'. simpl. now rewrite Hc, Ha, Hb.
Qed.

(** A needle found in a text is found in every text around it. *)
Lemma substring_wrap (needle m pre post : string) :
  Substring needle m -> Substring needle (pre ++ m ++ post).
Proof.
  intros [a [b ->]]. exists (pre ++ a), (b ++ post).
  now rewrite !append_assoc.
Qed.

Lemma len_append (a b : string) : len (a ++ b) = len a + len b.
Proof.
  induction a as [|c a IH]; simpl; [reflexivity | rewrite IH; lia].
Qed.

(** Lowercasing moves no byte into or out of the range 128..191. *)
Lemma lower_char_range (c : ascii) :
  ((128 <=? nat_of_ascii (lower_char c)) && (nat_of_ascii (lower_char c) <? 192))%nat
  = ((128 <=? nat_of_ascii c) && (nat_of_ascii c <? 192))%nat.
Proof.
  unfold lower_char.
  destruct ((65 <=? nat_of_ascii c) && (nat_of_ascii c <=? 90))%nat eqn:Hup;
    [| reflexivity].
  apply andb_true_iff in Hup. destruct Hup as [H1 H2].
  apply Nat.leb_le in H1, H2.
  rewrite nat_ascii_embedding by lia.
  replace (128 <=? nat_of_ascii c + 32)%nat with false
    by (symmetry; apply Nat.leb_gt; lia).
  replace (128 <=? nat_of_ascii c)%nat with false
    by (symmetry; apply Nat.leb_gt; lia).
  reflexivity.
Qed.

Lemma len_lower (s : string) : len (lower s) = len s.
Proof.
  induction s as [|c s IH]; [reflexivity |].
  cbn [lower len]. cbv zeta. now rewrite lower_char_range, IH.
Qed.

(** A text holds no needle with more characters than it has. *)
Lemma substring_len (needle hay : string) :
  Substring needle hay -> len needle <= len hay.
Proof.
  intros [pre [post ->]]. rewrite !len_append. lia.
Qed.

Lemma count_nl_append (a b : string) :
  count_nl (a ++ b) = count_nl a + count_nl b.
Proof.
  induction a as [|c a IH]; simpl; [reflexivity | rewrite IH; lia].
Qed.

(** The report ends five lines more than the message does. *)
Lemma count_nl_report (message : string) (b : bucket) :
  count_nl (report message (explanation b)) = count_nl message + 5.
Proof.
  unfold report. rewrite !count_nl_append.
  destruct b; cbn; lia.
Qed.

(** ** The policy is a partition *)

Lemma selects_total (message : string) : exists b, selects message b.
Proof.
  destruct (contains "not defined" message) eqn:H1.
  - exists UndefinedVariableLike. now apply contains_iff.
  - apply contains_false_iff in H1.
    destruct (contains "syntax" (lower message)) eqn:H2.
    + exists SyntaxLike. split; [exact H1 | now apply contains_iff].
    + exists Other. split; [exact H1 | now apply contains_false_iff].
Qed.

Lemma selects_functional (message : string) (b b' : bucket) :
  selects message b -> selects message b' -> b = b'.
Proof.
  destruct b, b'; simpl; intros H H'; try reflexivity; tauto.
Qed.

(** Different buckets give different reports of the same message. *)
Lemma report_determines_bucket (out message : string) (b b' : bucket) :
  out ++ report message (explanation b)
  = out ++ report message (explanation b') ->
  b = b'.
Proof.
  intros H. apply append_cancel_l in H. unfold report in H.
  apply (append_cancel_l "Error detected:") in H.
  do 3 apply append_cancel_l in H.
  apply (append_cancel_l nl) in H.
  apply (append_cancel_l "Explanation:") in H.
  apply (append_cancel_l nl) in H.
  destruct b, b'; try reflexivity; discriminate H.
Qed.

(** ** The clause [except Exception] *)

Lemma matches_builtin (e : pyexc) (b : builtin) :
  matches e (Builtin b) = isinstance e b.
Proof.
  unfold matches, isinstance. destruct e as [c text]. cbn [exc_type].
  induction c as [a | name base IH].
  - cbn [mro builtin_ancestors].
    induction (builtin_mro a) as [|x l IHl]; [reflexivity |].
    cbn [map existsb]. rewrite IHl. f_equal.
    destruct (exc_class_eq_dec (Builtin x) (Builtin b)) as [Heq | Hne];
      destruct (builtin_eq_dec x b) as [Heq' | Hne']; try reflexivity.
    + injection Heq as Heq. contradiction.
    + subst x. contradiction.
  - cbn [mro builtin_ancestors existsb]. rewrite IH.
    destruct (exc_class_eq_dec (Subclass name base) (Builtin b));
      [discriminate | reflexivity].
Qed.

Lemma catches_builtin_Exception (e : pyexc) :
  catches (Classes [Builtin Exception]) e = Value (isinstance e Exception).
Proof.
  cbn [catches existsb]. now rewrite matches_builtin, orb_false_r.
Qed.

(** ** The built-in [print] *)

Section BuiltinPrint.

Variable heap : Type.
Variable rejects : string -> option pyexc.

Lemma print_plain_ok (s : string) (h : heap) :
  writable rejects s = true ->
  builtin_print rejects (plain s) h = (s ++ nl, h, Value tt).
Proof.
  unfold writable, builtin_print, bind, plain, ret, write_line.
  cbn [to_text]. intros Hw.
  destruct (is_ascii s); [reflexivity |].
  destruct (rejects s); [discriminate Hw | reflexivity].
Qed.

Lemma print_plain_refused (s : string) (h : heap) (err : pyexc) :
  is_ascii s = false ->
  rejects s = Some err ->
  builtin_print rejects (plain s) h = (EmptyString, h, Throws err).
Proof.
  unfold builtin_print, bind, plain, ret, write_line.
  cbn [to_text]. intros Ha Hr. now rewrite Ha, Hr.
Qed.

End BuiltinPrint.

(** ** The handler in a namespace the script left alone *)

Section Handler.

Variable heap : Type.
Variable rejects : string -> option pyexc.
Variable ns : namespace heap.
Variable e : pyexc.

Hypothesis Hstr : forall h, call_str ns e h = builtin_str e h.
Hypothesis Hprint :
  forall x h, call_print ns x h = builtin_print rejects x h.

Ltac printed :=
  rewrite Hprint, print_plain_ok by (assumption || reflexivity);
  cbv beta iota.

Ltac evaluated :=
  cbn [obj_contains obj_lower low_contains plain]; unfold ret;
  cbv beta iota.

(** The handler writes the report of the bucket the policy selects, and
    ends without raising. *)
Lemma handler_follows_policy (b : bucket) (h : heap) :
  writable rejects (exc_str e) = true ->
  selects (exc_str e) b ->
  except_handler ns e h = (report (exc_str e) (explanation b), h, Value tt).
Proof.
  intros Hw Hb.
  assert (Htests :
    contains "not defined" (exc_str e)
    = match b with UndefinedVariableLike => true | _ => false end
    /\ (b <> UndefinedVariableLike ->
        contains "syntax" (lower (exc_str e))
        = match b with SyntaxLike => true | _ => false end)).
  { destruct b; cbn in Hb.
    - split; [now apply contains_iff | congruence].
    - destruct Hb as [H1 H2]. split; [now apply contains_false_iff |].
      intros _. now apply contains_iff.
    - destruct Hb as [H1 H2].
      split; [| intros _]; now apply contains_false_iff. }
  destruct Htests as [Hnd Hsyn].
  unfold except_handler, bind.
  rewrite Hstr. unfold builtin_str, ret. cbv beta iota.
  do 2 printed. evaluated.
  rewrite Hnd.
  destruct b; cbv beta iota.
  - do 2 printed. unfold report, explanation.
    repeat rewrite append_assoc. reflexivity.
  - evaluated. rewrite Hsyn by discriminate. cbv beta iota.
    do 2 printed. unfold report, explanation.
    repeat rewrite append_assoc. reflexivity.
  - evaluated. rewrite Hsyn by discriminate. cbv beta iota.
    do 2 printed. unfold report, explanation.
    repeat rewrite append_assoc. reflexivity.
Qed.

(** When standard output refuses the message, the handler stops after
    the header. *)
Lemma handler_refused (h : heap) (err : pyexc) :
  is_ascii (exc_str e) = false ->
  rejects (exc_str e) = Some err ->
  except_handler ns e h = ("Error detected:" ++ nl, h, Throws err).
Proof.
  intros Ha Hr. unfold except_handler, bind.
  rewrite Hstr. unfold builtin_str, ret. cbv beta iota.
  printed.
  rewrite Hprint, (print_plain_refused _ _ _ _ _ Ha Hr). cbv beta iota.
  now rewrite append_nil_r.
Qed.

End Handler.

(** ** The [try] statement *)

Lemma fresh_untouched (w : world) (e : pyexc) :
  names (try_body w) = fresh (rejects w) -> Untouched w e.
Proof.
  intros H. unfold Untouched. rewrite H. now repeat split.
Qed.

Section RaisedError.

Variable w : world.
Variable e : pyexc.
Hypothesis Hraised : ending (try_body w) = Raised e.

(** With [Exception] still the built-in class, an error outside it
    passes the handler. *)
Lemma main_lets_escape :
  name_Exception (names (try_body w)) = Classes [Builtin Exception] ->
  isinstance e Exception = false ->
  main w = {| stdout := written (try_body w); status := Uncaught e |}.
Proof.
  intros Hname Hmiss. unfold main. cbv zeta.
  now rewrite Hraised, Hname, catches_builtin_Exception, Hmiss.
Qed.

Hypothesis Huntouched : Untouched w e.
Hypothesis Hcaught : isinstance e Exception = true.

Lemma main_reports (b : bucket) :
  Writable w (exc_str e) ->
  selects (exc_str e) b ->
  main w = {| stdout := written (try_body w)
                        ++ report (exc_str e) (explanation b);
              status := NormalExit |}.
Proof.
  intros Hw Hb. destruct Huntouched as [Hname [Hstr Hprint]].
  unfold main. cbv zeta.
  rewrite Hraised, Hname, catches_builtin_Exception, Hcaught.
  now rewrite (handler_follows_policy _ (rejects w) _ e Hstr Hprint b _ Hw Hb).
Qed.

(** The bucket can be read back from the output. *)
Lemma reported_bucket (b : bucket) :
  Writable w (exc_str e) ->
  stdout (main w)
  = written (try_body w) ++ report (exc_str e) (explanation b) ->
  selects (exc_str e) b.
Proof.
  intros Hw Hout.
  destruct (selects_total (exc_str e)) as [b0 Hb0].
  rewrite (main_reports b0 Hw Hb0) in Hout. cbn in Hout.
  now rewrite <- (report_determines_bucket _ _ _ _ Hout).
Qed.

Lemma main_refused (err : pyexc) :
  is_ascii (exc_str e) = false ->
  rejects w (exc_str e) = Some err ->
  main w = {| stdout := written (try_body w) ++ "Error detected:" ++ nl;
              status := Uncaught err |}.
Proof.
  intros Ha Hr. destruct Huntouched as [Hname [Hstr Hprint]].
  unfold main. cbv zeta.
  rewrite Hraised, Hname, catches_builtin_Exception, Hcaught.
  now rewrite (handler_refused _ (rejects w) _ e Hstr Hprint _ err Ha Hr).
Qed.

End RaisedError.

(** ** Runs of scripts that change what the handler uses *)

(** After [Exception = KeyError], the error of [1/0] is not caught: the
    clause tests against the class the name is bound to. *)
Example rebound_Exception_lets_escape :
  main Tampered.rebound_Exception
  = {| stdout := "";
       status :=
         Uncaught (Samples.instance ZeroDivisionError "division by zero") |}
  /\ exit_status (status (main Tampered.rebound_Exception)) = Some 1%Z.
Proof. split; reflexivity. Qed.

(** A message of a subclass of [str] that denies every [in] gets the
    sentence about syntax although its text holds ["not defined"]. *)
Example denying_message_gets_syntax :
  main Tampered.denying_message
  = {| stdout := report "syntax table is not defined"
                   "There is a syntax mistake. Check brackets or colons.";
       status := NormalExit |}.
Proof. reflexivity. Qed.

(** ** The claims *)







(** C3: without [test.py] the error of [open] is caught by the handler;
    its message holds neither needle, and the program prints the report
    with the generic sentence. *)
Theorem missing_file_generic (w : world) :
  test_py w = None ->
  main w
  = {| stdout := report "[Errno 2] No such file or directory: 'test.py'"
                   "An error occurred. Please check your code.";
       status := NormalExit |}
  /\ ~ Substring "not defined"
         "[Errno 2] No such file or directory: 'test.py'"
  /\ ~ Substring "syntax"
         (lower "[Errno 2] No such file or directory: 'test.py'").
Proof.
  intros Hmissing. split; [| split].
  - unfold main, try_body. rewrite Hmissing. reflexivity.
  - now apply contains_false_iff.
  - now apply contains_false_iff.
Qed.

Lemma missing_file_generic_witness :
  stdout (main Samples.no_script)
  = report "[Errno 2] No such file or directory: 'test.py'"
      "An error occurred. Please check your code.".
Proof.
  rewrite (proj1 (missing_file_generic Samples.no_script eq_refl)).
  reflexivity.
Defined.






















(** ** Further properties of the program *)
















